(** * campus-demo-testing: the todo service, embedded and verified

    The server part of the repository is an Express application with two
    routes ([GET /api/todos], [POST /api/todos/add]) and a small persistence
    gateway around a mongoose connection.  This development embeds

    - the shared entity types                     ([Category], [Todo]),
    - the persistence gateway                     ([Gateway.connect]),
    - the two controllers                         ([Controller.addTodo],
                                                   [Controller.getTodos])

    as programs of a small asynchronous command language, gives that
    language a run-to-completion semantics over an explicit world (the
    response object, the mongoose connection, the promises handed out by the
    driver, and a chronological trace of every call that leaves the module),
    and proves the properties of the handlers on it. *)

From Stdlib Require Import ZArith String Bool Lia.
From Stdlib Require Import Floats.SpecFloat.
From stdpp Require Import gmap strings list fin_maps.

Set Warnings "-register-all".
Local Open Scope string_scope.
Local Open Scope list_scope.

(* ===================================================================== *)
(** * JavaScript values                                                   *)
(* ===================================================================== *)

Module JS.

(** The values that can reach the handlers: what a JSON body parser puts
    in [req.body], plus [undefined].  Numbers are IEEE 754 doubles; objects
    are finite maps from property names to values. *)
Inductive JSValue : Type :=
| JUndefined
| JNull
| JBool (b : bool)
| JNumber (x : spec_float)
| JString (s : string)
| JArray (xs : list JSValue)
| JObject (fields : gmap string JSValue).

(** ToBoolean: [undefined], [null], [false], [+0], [-0], [NaN] and the
    empty string are falsy, everything else (every object and array
    included) is truthy. *)
Definition isTruthy (v : JSValue) : bool :=
  match v with
  | JUndefined | JNull => false
  | JBool b => b
  | JNumber (S754_zero _) | JNumber S754_nan => false
  | JNumber _ => true
  | JString s => negb (String.eqb s "")
  | JArray _ | JObject _ => true
  end.

(** Property read [v.key] for the keys the handlers use.  Reading a
    property of [undefined] or [null] raises a TypeError ([None]); an
    object yields the stored value or [undefined]; on the remaining
    values the two keys read by the handlers ([description], [category])
    are not defined, own or inherited, so the read yields [undefined]. *)
Definition getProp (v : JSValue) (key : string) : option JSValue :=
  match v with
  | JUndefined | JNull => None
  | JObject fields => Some (default JUndefined (fields !! key))
  | JBool _ | JNumber _ | JString _ | JArray _ => Some JUndefined
  end.

(** [!!v.key], with a failed read counted as falsy. *)
Definition hasTruthy (v : JSValue) (key : string) : bool :=
  match getProp v key with
  | Some x => isTruthy x
  | None => false
  end.

(** The own property names of an object. *)
Definition ownKeys (v : JSValue) : gset string :=
  match v with
  | JObject fields => dom fields
  | _ => ∅
  end.

End JS.
Export JS.

(* ===================================================================== *)
(** * Shared entity types (library/types)                                 *)
(* ===================================================================== *)

Module Types.

(** [export type Category = "shopping" | "learning" | "hobby"] *)
Inductive Category : Type := shopping | learning | hobby.

Definition Category_label (c : Category) : string :=
  match c with
  | shopping => "shopping"
  | learning => "learning"
  | hobby => "hobby"
  end.

(** [export type Todo = { id; description; done; category }] *)
Record Todo : Type := mkTodo {
  id : spec_float;
  description : string;
  done : bool;
  category : Category;
}.

(** The object a [Todo] is at run time (the type is erased). *)
Definition Todo_value (t : Todo) : JSValue :=
  JObject {[ "id" := JNumber (id t);
             "description" := JString (description t);
             "category" := JString (Category_label (category t));
             "done" := JBool (done t) ]}.

(** Membership of a run-time value in the closed label set of [Category]. *)
Definition isCategory (v : JSValue) : bool :=
  match v with
  | JString s =>
      String.eqb s (Category_label shopping)
      || String.eqb s (Category_label learning)
      || String.eqb s (Category_label hobby)
  | _ => false
  end.

End Types.

(* ===================================================================== *)
(** * The asynchronous runtime                                            *)
(* ===================================================================== *)

Module Runtime.

(** ** Promises handed out by the database driver *)

Definition PromiseId : Type := nat.

Inductive Settlement : Type := Fulfilled | Rejected.

Inductive PromiseState : Type := Pending | Settled (s : Settlement).

(** The driver operation a promise stands for. *)
Inductive Operation : Type := OpConnect | OpInsert.

(** mongoose's [ConnectionStates], the values of
    [mongoose.connection.readyState]. *)
Module ConnectionStates.
Definition disconnected : Z := 0.
Definition connected : Z := 1.
Definition connecting : Z := 2.
Definition disconnecting : Z := 3.
End ConnectionStates.

(** ** Observable calls *)

(** Every call that leaves a handler or the gateway, in the order it
    happens.  [EvDbConnect] records an entry into the gateway's [connect]
    (what a spy on [db.connect] counts); [EvSettled] records the event
    loop settling a driver promise. *)
Inductive Event : Type :=
| EvConsoleDebug (args : list JSValue)
| EvResStatus (code : Z)
| EvResJson (body : JSValue)
| EvDbConnect
| EvMongooseConnect (url : string) (p : PromiseId)
| EvInsertMany (docs : JSValue) (p : PromiseId)
| EvMathRandom (x : spec_float)
| EvSettled (p : PromiseId) (s : Settlement).

(** ** The world a handler runs in *)

Record World : Type := mkWorld {
  readyState : Z;                               (* mongoose.connection.readyState *)
  promises : list (Operation * PromiseState);   (* driver promises, by id *)
  statusCode : Z;                               (* res.statusCode *)
  sent : list (Z * JSValue);                    (* responses written: status, JSON body *)
  draws : nat;                                  (* Math.random calls so far *)
  trace : list Event;
}.

(** What the handler cannot decide: how the driver's promises settle and
    what [Math.random] returns. *)
Record Env : Type := mkEnv {
  outcome : PromiseId -> Settlement;
  random : nat -> spec_float;
}.

(** A server whose connection is in state [rs], before any request. *)
Definition boot (rs : Z) : World :=
  {| readyState := rs; promises := []; statusCode := 200; sent := [];
     draws := 0; trace := [] |}.

(** Express hands each request a new response object: status 200,
    nothing written. *)
Definition newResponse (w : World) : World :=
  {| readyState := readyState w; promises := promises w;
     statusCode := 200; sent := [];
     draws := draws w; trace := trace w |}.

Definition log (e : Event) (w : World) : World :=
  {| readyState := readyState w; promises := promises w;
     statusCode := statusCode w; sent := sent w;
     draws := draws w; trace := trace w ++ [e] |}.

(** ** Commands *)

Inductive Command : Type -> Type :=
| ConsoleDebug (args : list JSValue) : Command unit
| ResStatus (code : Z) : Command unit
| ResJson (body : JSValue) : Command unit
| EnterDbConnect : Command unit
| ReadyState : Command Z
| MongooseConnect (url : string) : Command PromiseId
| InsertMany (docs : JSValue) : Command PromiseId
| MathRandom : Command spec_float.

(** One command, run to its return.  The collaborators are the libraries'
    (Express, mongoose, the JavaScript runtime), modelled as far as the
    handlers use them:
    - [res.status] sets the status code and [res.json] writes the body
      under the current status code;
    - [mongoose.connect] and [Model.insertMany] are asynchronous: they
      register a pending promise and return it at once, and the promise can
      only be settled later, by the event loop, while no task is running;
    - [mongoose.connect], which the gateway calls only on a connection that
      is not connected, moves the connection to [connecting];
    - [Math.random] returns what the environment draws. *)
Definition exec (env : Env) {X : Type} (c : Command X) (w : World) : X * World :=
  match c in Command X return X * World with
  | ConsoleDebug args => (tt, log (EvConsoleDebug args) w)
  | ResStatus code =>
      (tt, log (EvResStatus code)
             {| readyState := readyState w; promises := promises w;
                statusCode := code; sent := sent w;
                draws := draws w; trace := trace w |})
  | ResJson body =>
      (tt, log (EvResJson body)
             {| readyState := readyState w; promises := promises w;
                statusCode := statusCode w;
                sent := sent w ++ [(statusCode w, body)];
                draws := draws w; trace := trace w |})
  | EnterDbConnect => (tt, log EvDbConnect w)
  | ReadyState => (readyState w, w)
  | MongooseConnect url =>
      let p := length (promises w) in
      (p, log (EvMongooseConnect url p)
            {| readyState := ConnectionStates.connecting;
               promises := promises w ++ [(OpConnect, Pending)];
               statusCode := statusCode w; sent := sent w;
               draws := draws w; trace := trace w |})
  | InsertMany docs =>
      let p := length (promises w) in
      (p, log (EvInsertMany docs p)
            {| readyState := readyState w;
               promises := promises w ++ [(OpInsert, Pending)];
               statusCode := statusCode w; sent := sent w;
               draws := draws w; trace := trace w |})
  | MathRandom =>
      let x := random env (draws w) in
      (x, log (EvMathRandom x)
            {| readyState := readyState w; promises := promises w;
               statusCode := statusCode w; sent := sent w;
               draws := S (draws w); trace := trace w |})
  end.

(** The event loop settles promise [p] while the task that awaits it is
    suspended.  A pending promise gets the outcome the environment
    decides; a connection attempt that succeeds leaves the connection
    [connected], one that fails leaves it [disconnected].  A promise
    settled earlier keeps its outcome. *)
Definition settle (env : Env) (p : PromiseId) (w : World) : Settlement * World :=
  match promises w !! p with
  | Some (op, Pending) =>
      let s := outcome env p in
      (s, log (EvSettled p s)
            {| readyState :=
                 match op, s with
                 | OpConnect, Fulfilled => ConnectionStates.connected
                 | OpConnect, Rejected => ConnectionStates.disconnected
                 | OpInsert, _ => readyState w
                 end;
               promises := <[p := (op, Settled s)]> (promises w);
               statusCode := statusCode w; sent := sent w;
               draws := draws w; trace := trace w |})
  | Some (_, Settled s) => (s, w)
  | None => (Fulfilled, w)
  end.

(** ** Asynchronous programs *)

Inductive Error : Type :=
| TypeError
| Rejection (p : PromiseId).

(** The body of an [async function]: commands in sequence, [await] on a
    driver promise, [return] and [throw]. *)
Inductive Async (A : Type) : Type :=
| Return (a : A)
| Throw (e : Error)
| Do {X : Type} (c : Command X) (k : X -> Async A)
| Await (p : PromiseId) (k : Async A).
Arguments Return {A} a.
Arguments Throw {A} e.
Arguments Do {A X} c k.
Arguments Await {A} p k.

Fixpoint bind {A B : Type} (m : Async A) (f : A -> Async B) : Async B :=
  match m with
  | Return a => f a
  | Throw e => Throw e
  | Do c k => Do c (fun x => bind (k x) f)
  | Await p k => Await p (bind k f)
  end.

#[export] Instance Async_ret : MRet Async := fun A a => Return a.
#[export] Instance Async_bind : MBind Async := fun A B f m => bind m f.

Definition perform {X : Type} (c : Command X) : Async X := Do c Return.

(** [await p] as a statement. *)
Definition await (p : PromiseId) : Async unit := Await p (Return tt).

(** ** Semantics *)

Inductive Outcome (A : Type) : Type :=
| Returned (a : A)
| Threw (e : Error).
Arguments Returned {A} a.
Arguments Threw {A} e.

(** A whole call, awaited: at each [await] the task is suspended, the
    event loop settles the promise, and the task resumes (fulfilled) or
    throws (rejected).  Between two [await]s the task runs to completion:
    nothing is settled in between.  Awaiting the call of another async
    function of the repository is sequencing ([bind]): the callee runs, its
    rejection is thrown at the [await]. *)
Fixpoint run (env : Env) {A : Type} (m : Async A) (w : World) : Outcome A * World :=
  match m with
  | Return a => (Returned a, w)
  | Throw e => (Threw e, w)
  | Do c k => let '(x, w') := exec env c w in run env (k x) w'
  | Await p k =>
      match settle env p w with
      | (Fulfilled, w') => run env k w'
      | (Rejected, w') => (Threw (Rejection p), w')
      end
  end.

(** The synchronous part of a call: an [async function] runs up to its
    first [await] and hands control back to its caller with the rest
    suspended. *)
Inductive Task (A : Type) : Type :=
| Finished (r : Outcome A)
| Suspended (p : PromiseId) (k : Async A).
Arguments Finished {A} r.
Arguments Suspended {A} p k.

Fixpoint start (env : Env) {A : Type} (m : Async A) (w : World) : Task A * World :=
  match m with
  | Return a => (Finished (Returned a), w)
  | Throw e => (Finished (Threw e), w)
  | Do c k => let '(x, w') := exec env c w in start env (k x) w'
  | Await p k => (Suspended p k, w)
  end.

(** The event loop resumes a suspended task once its promise settled. *)
Definition resume (env : Env) {A : Type} (t : Task A) (w : World) : Outcome A * World :=
  match t with
  | Finished r => (r, w)
  | Suspended p k =>
      match settle env p w with
      | (Fulfilled, w') => run env k w'
      | (Rejected, w') => (Threw (Rejection p), w')
      end
  end.

(** ** Reading a trace *)

Definition isPending (w : World) (p : PromiseId) : bool :=
  match promises w !! p with
  | Some (_, Pending) => true
  | _ => false
  end.

Definition isDbConnect (e : Event) : bool :=
  match e with EvDbConnect => true | _ => false end.

Definition isMongooseConnect (e : Event) : bool :=
  match e with EvMongooseConnect _ _ => true | _ => false end.

(** Entries into the gateway's [connect]. *)
Definition connectCalls (t : list Event) : nat :=
  length (List.filter isDbConnect t).

(** Calls of the driver's [mongoose.connect]. *)
Definition connectionAttempts (t : list Event) : nat :=
  length (List.filter isMongooseConnect t).

(** The arguments of the [insertMany] calls, in order. *)
Fixpoint inserted (t : list Event) : list JSValue :=
  match t with
  | [] => []
  | EvInsertMany docs _ :: t' => docs :: inserted t'
  | _ :: t' => inserted t'
  end.

Definition isPersistenceCall (e : Event) : bool :=
  match e with
  | EvDbConnect | EvMongooseConnect _ _ | EvInsertMany _ _ => true
  | _ => false
  end.

(** Every call into the gateway, the driver or the model. *)
Definition persistenceCalls (t : list Event) : list Event :=
  List.filter isPersistenceCall t.

(** The events a run added: the trace of [w'] beyond that of [w]. *)
Definition since (w w' : World) : list Event :=
  drop (length (trace w)) (trace w').

(** Does the trace write a response while an insert issued earlier has
    not been settled?  [open] holds the inserts in flight. *)
Fixpoint respondsDuringInsert (open : list PromiseId) (t : list Event) : bool :=
  match t with
  | [] => false
  | EvInsertMany _ p :: t' => respondsDuringInsert (p :: open) t'
  | EvSettled p _ :: t' =>
      respondsDuringInsert (List.filter (fun q => negb (Nat.eqb q p)) open) t'
  | EvResJson _ :: t' =>
      match open with
      | [] => respondsDuringInsert open t'
      | _ :: _ => true
      end
  | _ :: t' => respondsDuringInsert open t'
  end.

End Runtime.
Export Runtime.

(* ===================================================================== *)
(** * The persistence gateway (server/utils)                              *)
(* ===================================================================== *)

(** [@server/config] is not among the sources; the gateway uses only its
    connection string, which the embedding takes as a parameter. *)
Record Config : Type := mkConfig {
  MONGO_DB_URL : string;
}.

Module Gateway.

(** [[
    async function connect() {
      if (mongoose.connection.readyState === 1) {
        return;
      }
      await mongoose.connect(config.MONGO_DB_URL);
    }
    ]] *)
Definition connect (config : Config) : Async unit :=
  perform EnterDbConnect;;
  rs ← perform ReadyState;
  if Z.eqb rs 1 then
    mret tt
  else
    p ← perform (MongooseConnect (MONGO_DB_URL config));
    await p.

(** The world after the synchronous part of a [connect] that found the
    connection not live: the attempt is logged, its promise pending. *)
Definition attempting (config : Config) (w : World) : World :=
  {| readyState := ConnectionStates.connecting;
     promises := promises w ++ [(OpConnect, Pending)];
     statusCode := statusCode w; sent := sent w; draws := draws w;
     trace := trace w ++ [EvDbConnect;
                          EvMongooseConnect (MONGO_DB_URL config) (length (promises w))] |}.

(** The world after that attempt was settled as [s]. *)
Definition attempted (config : Config) (s : Settlement) (w : World) : World :=
  {| readyState := match s with
                   | Fulfilled => ConnectionStates.connected
                   | Rejected => ConnectionStates.disconnected
                   end;
     promises := promises w ++ [(OpConnect, Settled s)];
     statusCode := statusCode w; sent := sent w; draws := draws w;
     trace := trace w ++ [EvDbConnect;
                          EvMongooseConnect (MONGO_DB_URL config) (length (promises w));
                          EvSettled (length (promises w)) s] |}.

End Gateway.

(* ===================================================================== *)
(** * The controllers (server/controller)                                 *)
(* ===================================================================== *)

(** The part of an Express request the handlers look at. *)
Record Request : Type := mkRequest {
  path : JSValue;
  body : JSValue;
}.

Module Controller.

(** The object literal [{ message: text }]. *)
Definition message (text : string) : JSValue :=
  JObject {[ "message" := JString text ]}.

(** The object literal [{ description, category }]. *)
Definition newDocument (description category : JSValue) : JSValue :=
  JObject {[ "description" := description; "category" := category ]}.

(** A property read inside an async function: a TypeError is thrown. *)
Definition read (v : JSValue) (key : string) : Async JSValue :=
  match getProp v key with
  | Some x => mret x
  | None => Throw TypeError
  end.

(** [[
    export async function addTodo(req, res) {
      console.debug("addTodo", req.path);
      if (!req.body) { res.status(400).json({ message: "No body!" }); return; }
      const description = req.body.description;
      if (!description) { res.status(400).json({ message: "No description!" }); return; }
      const category = req.body.category;
      if (!category) { res.status(400).json({ message: "No category!" }); return; }
      await db.connect();
      TodoModel.insertMany({ description, category });
      res.json({ message: "addTodo" });
    }
    ]]
    The promise returned by [insertMany] is dropped: the call is not
    awaited. *)
Definition addTodo (config : Config) (req : Request) : Async unit :=
  perform (ConsoleDebug [JString "addTodo"; path req]);;
  if negb (isTruthy (body req)) then
    perform (ResStatus 400);;
    perform (ResJson (message "No body!"))
  else
    description ← read (body req) "description";
    if negb (isTruthy description) then
      perform (ResStatus 400);;
      perform (ResJson (message "No description!"))
    else
      category ← read (body req) "category";
      if negb (isTruthy category) then
        perform (ResStatus 400);;
        perform (ResJson (message "No category!"))
      else
        Gateway.connect config;;
        _ ← perform (InsertMany (newDocument description category));
        perform (ResJson (message "addTodo")).

(** [[
    export async function getTodos(req, res) {
      console.debug("getTodos", req.path);
      const newTodo: Todo = { id: Math.random(), description: "description",
                              category: "hobby", done: false };
      res.json(newTodo);
    }
    ]] *)
Definition getTodos (req : Request) : Async unit :=
  perform (ConsoleDebug [JString "getTodos"; path req]);;
  r ← perform MathRandom;
  let newTodo : Types.Todo :=
    {| Types.id := r;
       Types.description := "description";
       Types.category := Types.hobby;
       Types.done := false |} in
  perform (ResJson (Types.Todo_value newTodo)).

(** ** The worlds a run of [addTodo] ends in *)

(** After a refusal with [text], for a request that arrived in [w]. *)
Definition refused (req : Request) (text : string) (w : World) : World :=
  {| readyState := readyState w; promises := promises w;
     statusCode := 400; sent := [(400%Z, message text)];
     draws := draws w;
     trace := trace w ++ [EvConsoleDebug [JString "addTodo"; path req];
                          EvResStatus 400;
                          EvResJson (message text)] |}.

(** The world in which [addTodo] calls the gateway. *)
Definition validated (req : Request) (w : World) : World :=
  log (EvConsoleDebug [JString "addTodo"; path req]) (newResponse w).

(** After the insert was issued and the acknowledgment written, where
    [w1] is the world the gateway returned in. *)
Definition accepted (description category : JSValue) (w1 : World) : World :=
  {| readyState := readyState w1;
     promises := promises w1 ++ [(OpInsert, Pending)];
     statusCode := statusCode w1;
     sent := sent w1 ++ [(statusCode w1, message "addTodo")];
     draws := draws w1;
     trace := trace w1 ++ [EvInsertMany (newDocument description category)
                                        (length (promises w1));
                           EvResJson (message "addTodo")] |}.

(** The gateway can bring the connection up for a request arriving in
    [w]: it is live already, or the attempt the driver starts next is
    fulfilled. *)
Definition canConnect (env : Env) (w : World) : Prop :=
  readyState w = 1%Z \/ outcome env (length (promises w)) = Fulfilled.

End Controller.

(* ===================================================================== *)
(** * Sample inputs                                                       *)
(* ===================================================================== *)

Module Sample.

Definition half : spec_float := S754_finite false 1 (-1).

Definition config : Config := {| MONGO_DB_URL := "mongodb://localhost:27017/todos" |}.

(** Every driver promise is fulfilled; [Math.random] returns 0.5. *)
Definition up : Env := {| outcome := fun _ => Fulfilled; random := fun _ => half |}.

(** Every driver promise is rejected. *)
Definition down : Env := {| outcome := fun _ => Rejected; random := fun _ => half |}.

(** [req = {}] as in the unit tests: neither path nor body. *)
Definition empty : Request := {| path := JUndefined; body := JUndefined |}.

Definition post (b : JSValue) : Request := {| path := JString "/add"; body := b |}.

Definition get : Request := {| path := JString "/"; body := JUndefined |}.

Definition testData : JSValue :=
  JObject {[ "description" := JString "test-description";
             "category" := JString "test-category" ]}.

End Sample.

Import Controller.

Arguments message : simpl never.
Arguments newDocument : simpl never.
Arguments Types.Todo_value : simpl never.

(* ===================================================================== *)
(** * Requests one after another                                          *)
(* ===================================================================== *)

Module Server.

(** A request that reached one of the two handlers. *)
Inductive Incoming : Type :=
| ToAddTodo (req : Request)
| ToGetTodos (req : Request).

Definition handler (config : Config) (i : Incoming) : Async unit :=
  match i with
  | ToAddTodo req => addTodo config req
  | ToGetTodos req => getTodos req
  end.

(** One request served to completion, with a response object of its own. *)
Definition serve (config : Config) (env : Env) (i : Incoming) (w : World) : World :=
  snd (run env (handler config i) (newResponse w)).

(** Requests served one after the other, none arriving while another is
    in progress. *)
Fixpoint serveAll (config : Config) (env : Env) (reqs : list Incoming) (w : World) : World :=
  match reqs with
  | [] => w
  | i :: rest => serveAll config env rest (serve config env i w)
  end.

(** What a request asks to store: the document of a Create-Todo request
    that passes the three checks, nothing otherwise. *)
Definition documents (i : Incoming) : list JSValue :=
  match i with
  | ToAddTodo req =>
      match getProp (body req) "description", getProp (body req) "category" with
      | Some d, Some c =>
          if isTruthy d && isTruthy c then [newDocument d c] else []
      | _, _ => []
      end
  | ToGetTodos _ => []
  end.

End Server.

(** The runs of [addTodo], path by path: the two checks that fail, the
    connection that is live, is brought up, or is refused. *)
Inductive AddTodoRun (config : Config) (env : Env) (req : Request) (w : World) :
  Outcome unit * World -> Prop :=
| RunNoBody :
    isTruthy (body req) = false ->
    AddTodoRun config env req w (Returned tt, refused req "No body!" w)
| RunNoDescription :
    isTruthy (body req) = true ->
    hasTruthy (body req) "description" = false ->
    AddTodoRun config env req w (Returned tt, refused req "No description!" w)
| RunNoCategory :
    isTruthy (body req) = true ->
    hasTruthy (body req) "description" = true ->
    hasTruthy (body req) "category" = false ->
    AddTodoRun config env req w (Returned tt, refused req "No category!" w)
| RunLive (d c : JSValue) :
    getProp (body req) "description" = Some d -> isTruthy d = true ->
    getProp (body req) "category" = Some c -> isTruthy c = true ->
    readyState w = 1%Z ->
    AddTodoRun config env req w
      (Returned tt, accepted d c (log EvDbConnect (validated req w)))
| RunConnected (d c : JSValue) :
    getProp (body req) "description" = Some d -> isTruthy d = true ->
    getProp (body req) "category" = Some c -> isTruthy c = true ->
    readyState w ≠ 1%Z ->
    outcome env (length (promises w)) = Fulfilled ->
    AddTodoRun config env req w
      (Returned tt, accepted d c (Gateway.attempted config Fulfilled (validated req w)))
| RunConnectionFailed (d c : JSValue) :
    getProp (body req) "description" = Some d -> isTruthy d = true ->
    getProp (body req) "category" = Some c -> isTruthy c = true ->
    readyState w ≠ 1%Z ->
    outcome env (length (promises w)) = Rejected ->
    AddTodoRun config env req w
      (Threw (Rejection (length (promises w))),
       Gateway.attempted config Rejected (validated req w)).

(* ===================================================================== *)
(** * Facts about the runtime                                             *)
(* ===================================================================== *)

Section RuntimeFacts.

Context (env : Env).

(** Sequencing: the second program runs in the world the first one
    leaves, unless the first one throws. *)
Lemma run_bind {A B : Type} (m : Async A) (f : A -> Async B) (w : World) :
  run env (m ≫= f) w =
    match run env m w with
    | (Returned a, w') => run env (f a) w'
    | (Threw e, w') => (Threw e, w')
    end.
Proof.
  change (m ≫= f) with (bind m f).
  revert w; induction m as [a | e | X c k IH | p k IH]; intros w; simpl.
  - reflexivity.
  - reflexivity.
  - destruct (exec env c w) as [x w1]. apply IH.
  - destruct (settle env p w) as [[|] w1]; [apply IH | reflexivity].
Qed.

Lemma ret_bind {A B : Type} (a : A) (f : A -> Async B) :
  mret a ≫= f = f a.
Proof. reflexivity. Qed.

(** A run is its synchronous part followed by the resumption. *)
Lemma run_start {A : Type} (m : Async A) (w : World) :
  run env m w = let '(t, w') := start env m w in resume env t w'.
Proof.
  revert w; induction m as [a | e | X c k IH | p k IH]; intros w; simpl.
  - reflexivity.
  - reflexivity.
  - destruct (exec env c w) as [x w1]. apply IH.
  - reflexivity.
Qed.

Lemma since_app (w w' : World) (l : list Event) :
  trace w' = trace w ++ l -> since w w' = l.
Proof. intros H. unfold since. rewrite H. apply drop_app_length. Qed.

(** The driver's promise for a call made in [w] is the next free slot. *)
Lemma lookup_fresh {T : Type} (l : list T) (x : T) :
  (l ++ [x]) !! length l = Some x.
Proof. by apply list_lookup_middle. Qed.

Lemma insert_fresh {T : Type} (l : list T) (x y : T) :
  <[length l := y]> (l ++ [x]) = l ++ [y].
Proof.
  rewrite insert_app_r_alt by lia.
  by rewrite Nat.sub_diag.
Qed.

End RuntimeFacts.

(* ===================================================================== *)
(** * Facts about the gateway                                             *)
(* ===================================================================== *)

Section GatewayFacts.

Context (config : Config) (env : Env).

Lemma start_connect_live (w : World) :
  readyState w = 1%Z ->
  start env (Gateway.connect config) w = (Finished (Returned tt), log EvDbConnect w).
Proof. intros H. simpl. rewrite H. reflexivity. Qed.

Lemma start_connect_not_live (w : World) :
  readyState w ≠ 1%Z ->
  start env (Gateway.connect config) w =
    (Suspended (length (promises w)) (Return tt), Gateway.attempting config w).
Proof.
  intros H. simpl.
  destruct (Z.eqb_spec (readyState w) 1) as [E | _]; [contradiction |].
  simpl. unfold Gateway.attempting, log; simpl.
  by rewrite <- app_assoc.
Qed.

Lemma settle_attempting (w : World) :
  settle env (length (promises w)) (Gateway.attempting config w) =
    (outcome env (length (promises w)),
     Gateway.attempted config (outcome env (length (promises w))) w).
Proof.
  unfold settle, Gateway.attempting; simpl.
  rewrite lookup_fresh, insert_fresh.
  unfold Gateway.attempted, log; simpl.
  rewrite <- app_assoc. reflexivity.
Qed.

Lemma run_connect_live (w : World) :
  readyState w = 1%Z ->
  run env (Gateway.connect config) w = (Returned tt, log EvDbConnect w).
Proof.
  intros H. rewrite run_start, start_connect_live by done. reflexivity.
Qed.

Lemma run_connect_not_live (w : World) :
  readyState w ≠ 1%Z ->
  run env (Gateway.connect config) w =
    match outcome env (length (promises w)) with
    | Fulfilled => (Returned tt, Gateway.attempted config Fulfilled w)
    | Rejected => (Threw (Rejection (length (promises w))), Gateway.attempted config Rejected w)
    end.
Proof.
  intros H. rewrite run_start, start_connect_not_live by done.
  simpl. rewrite settle_attempting.
  destruct (outcome env (length (promises w))); reflexivity.
Qed.

End GatewayFacts.

(* ===================================================================== *)
(** * Facts about the values                                              *)
(* ===================================================================== *)

Lemma getProp_truthy (v : JSValue) (key : string) :
  isTruthy v = true -> exists x, getProp v key = Some x.
Proof. destruct v; simpl; try discriminate; eauto. Qed.

(** Only an object has a truthy property. *)
Lemma truthy_prop_truthy (v x : JSValue) (key : string) :
  getProp v key = Some x -> isTruthy x = true -> isTruthy v = true.
Proof.
  destruct v; simpl; intros H Hx; try discriminate;
    try (injection H as <-; discriminate Hx); reflexivity.
Qed.

Lemma hasTruthy_inv (v : JSValue) (key : string) :
  hasTruthy v key = true ->
  exists x, getProp v key = Some x /\ isTruthy x = true.
Proof.
  unfold hasTruthy. destruct (getProp v key) as [x |]; [eauto | discriminate].
Qed.

Lemma getProp_newDocument_description (d c : JSValue) :
  getProp (newDocument d c) "description" = Some d.
Proof. unfold newDocument; simpl. by simplify_map_eq. Qed.

Lemma getProp_newDocument_category (d c : JSValue) :
  getProp (newDocument d c) "category" = Some c.
Proof. unfold newDocument; simpl. by simplify_map_eq. Qed.

Lemma ownKeys_newDocument (d c : JSValue) :
  ownKeys (newDocument d c) = {[ "description"; "category" ]}.
Proof.
  unfold newDocument, ownKeys.
  rewrite dom_insert_L, dom_singleton_L. reflexivity.
Qed.

(* ===================================================================== *)
(** * Facts about the Create-Todo handler                                 *)
(* ===================================================================== *)

Section AddTodoFacts.

Context (config : Config) (env : Env).

Lemma run_addTodo_no_body (req : Request) (w : World) :
  isTruthy (body req) = false ->
  run env (addTodo config req) (newResponse w) =
    (Returned tt, refused req "No body!" w).
Proof.
  intros Hb. unfold addTodo. simpl. rewrite Hb. simpl.
  unfold refused, log; simpl. by rewrite <- !app_assoc.
Qed.

Lemma run_addTodo_no_description (req : Request) (w : World) :
  isTruthy (body req) = true ->
  hasTruthy (body req) "description" = false ->
  run env (addTodo config req) (newResponse w) =
    (Returned tt, refused req "No description!" w).
Proof.
  intros Hb Hd. unfold addTodo. simpl. rewrite Hb. simpl.
  unfold hasTruthy in Hd. unfold read.
  destruct (getProp_truthy _ "description" Hb) as [d Ed].
  rewrite Ed in Hd |- *. simpl. rewrite Hd. simpl.
  unfold refused, log; simpl. by rewrite <- !app_assoc.
Qed.

Lemma run_addTodo_no_category (req : Request) (w : World) :
  hasTruthy (body req) "description" = true ->
  hasTruthy (body req) "category" = false ->
  run env (addTodo config req) (newResponse w) =
    (Returned tt, refused req "No category!" w).
Proof.
  intros Hd Hc.
  destruct (hasTruthy_inv _ _ Hd) as (d & Ed & Td).
  pose proof (truthy_prop_truthy _ _ _ Ed Td) as Hb.
  unfold addTodo. simpl. rewrite Hb. simpl.
  unfold read. rewrite Ed. simpl. rewrite Td. simpl.
  unfold hasTruthy in Hc.
  destruct (getProp_truthy _ "category" Hb) as [c Ec].
  rewrite Ec in Hc |- *. simpl. rewrite Hc. simpl.
  unfold refused, log; simpl. by rewrite <- !app_assoc.
Qed.

Lemma run_addTodo_valid (req : Request) (w : World) (d c : JSValue) :
  getProp (body req) "description" = Some d -> isTruthy d = true ->
  getProp (body req) "category" = Some c -> isTruthy c = true ->
  run env (addTodo config req) (newResponse w) =
    match run env (Gateway.connect config) (validated req w) with
    | (Returned _, w1) => (Returned tt, accepted d c w1)
    | (Threw e, w1) => (Threw e, w1)
    end.
Proof.
  intros Ed Td Ec Tc.
  pose proof (truthy_prop_truthy _ _ _ Ed Td) as Hb.
  unfold addTodo.
  cbn [mbind Async_bind bind perform run exec].
  rewrite Hb. cbn [negb]. unfold read. rewrite Ed.
  rewrite ret_bind, Td. cbn [negb]. rewrite Ec.
  rewrite ret_bind, Tc. cbn [negb].
  rewrite run_bind. fold (validated req w).
  destruct (run env (Gateway.connect config) (validated req w)) as [[[] | e] w1];
    [| reflexivity].
  simpl. unfold accepted, log; simpl. by rewrite <- !app_assoc.
Qed.

(** What each of those runs added to the trace. *)

Lemma since_refused (req : Request) (text : string) (w : World) :
  since w (refused req text w) =
    [EvConsoleDebug [JString "addTodo"; path req];
     EvResStatus 400;
     EvResJson (message text)].
Proof. apply since_app. reflexivity. Qed.

Lemma since_accepted_live (req : Request) (w : World) (d c : JSValue) :
  since w (accepted d c (log EvDbConnect (validated req w))) =
    [EvConsoleDebug [JString "addTodo"; path req];
     EvDbConnect;
     EvInsertMany (newDocument d c) (length (promises w));
     EvResJson (message "addTodo")].
Proof. apply since_app. simpl. by rewrite <- !app_assoc. Qed.

Lemma since_accepted_attempted (req : Request) (w : World) (d c : JSValue) :
  since w (accepted d c (Gateway.attempted config Fulfilled (validated req w))) =
    [EvConsoleDebug [JString "addTodo"; path req];
     EvDbConnect;
     EvMongooseConnect (MONGO_DB_URL config) (length (promises w));
     EvSettled (length (promises w)) Fulfilled;
     EvInsertMany (newDocument d c) (S (length (promises w)));
     EvResJson (message "addTodo")].
Proof.
  apply since_app. simpl. rewrite length_app, Nat.add_1_r.
  by rewrite <- !app_assoc.
Qed.

Lemma since_attempt_rejected (req : Request) (w : World) :
  since w (Gateway.attempted config Rejected (validated req w)) =
    [EvConsoleDebug [JString "addTodo"; path req];
     EvDbConnect;
     EvMongooseConnect (MONGO_DB_URL config) (length (promises w));
     EvSettled (length (promises w)) Rejected].
Proof. apply since_app. simpl. by rewrite <- !app_assoc. Qed.

(** The run of a valid request, by what the gateway finds. *)
Lemma run_addTodo_valid_cases (req : Request) (w : World) (d c : JSValue) :
  getProp (body req) "description" = Some d -> isTruthy d = true ->
  getProp (body req) "category" = Some c -> isTruthy c = true ->
  run env (addTodo config req) (newResponse w) =
    if Z.eqb (readyState w) 1 then
      (Returned tt, accepted d c (log EvDbConnect (validated req w)))
    else
      match outcome env (length (promises w)) with
      | Fulfilled =>
          (Returned tt,
           accepted d c (Gateway.attempted config Fulfilled (validated req w)))
      | Rejected =>
          (Threw (Rejection (length (promises w))),
           Gateway.attempted config Rejected (validated req w))
      end.
Proof.
  intros Ed Td Ec Tc.
  rewrite (run_addTodo_valid req w d c) by assumption.
  destruct (Z.eqb_spec (readyState w) 1) as [E | N].
  - rewrite run_connect_live by exact E. reflexivity.
  - rewrite run_connect_not_live by exact N. simpl.
    destruct (outcome env (length (promises w))); reflexivity.
Qed.

End AddTodoFacts.

(* ===================================================================== *)
(** * The Create-Todo handler: refusals                                   *)
(* ===================================================================== *)

(** C2.  A request without a body (any falsy [req.body]; an absent one is
    [undefined]) is answered with exactly one response, status 400 and body
    [{message: "No body!"}].  The run consists of the debug line and that
    response and nothing else: no property is read, and neither the
    gateway, the driver nor the model is called; connection and promises
    are left as they were. *)
Theorem addTodo_no_body (config : Config) (env : Env) (req : Request) (w : World) :
  isTruthy (body req) = false ->
  let '(r, w') := run env (addTodo config req) (newResponse w) in
  r = Returned tt
  /\ sent w' = [(400%Z, message "No body!")]
  /\ since w w' = [EvConsoleDebug [JString "addTodo"; path req];
                   EvResStatus 400;
                   EvResJson (message "No body!")]
  /\ persistenceCalls (since w w') = []
  /\ promises w' = promises w
  /\ readyState w' = readyState w.
Proof.
  intros Hb. rewrite run_addTodo_no_body by exact Hb.
  rewrite since_refused. repeat split.
Qed.

Lemma addTodo_no_body_witness :
  let '(r, w') := run Sample.up (addTodo Sample.config Sample.empty) (newResponse (boot 0)) in
  r = Returned tt
  /\ sent w' = [(400%Z, message "No body!")]
  /\ since (boot 0) w' = [EvConsoleDebug [JString "addTodo"; JUndefined];
                          EvResStatus 400;
                          EvResJson (message "No body!")]
  /\ persistenceCalls (since (boot 0) w') = []
  /\ promises w' = promises (boot 0)
  /\ readyState w' = readyState (boot 0).
Proof.
  apply (addTodo_no_body Sample.config Sample.up Sample.empty (boot 0)).
  reflexivity.
Defined.

(** C3.  A request whose description is missing or falsy, whatever its
    category, is refused without any call to the gateway, the driver or the
    model.  The body is looked at first: with a body the one response is
    400 [{message: "No description!"}], without one it is 400
    [{message: "No body!"}]. *)
Theorem addTodo_no_description (config : Config) (env : Env) (req : Request) (w : World) :
  hasTruthy (body req) "description" = false ->
  let text := if isTruthy (body req) then "No description!" else "No body!" in
  let '(r, w') := run env (addTodo config req) (newResponse w) in
  r = Returned tt
  /\ sent w' = [(400%Z, message text)]
  /\ since w w' = [EvConsoleDebug [JString "addTodo"; path req];
                   EvResStatus 400;
                   EvResJson (message text)]
  /\ persistenceCalls (since w w') = []
  /\ promises w' = promises w
  /\ readyState w' = readyState w.
Proof.
  intros Hd text.
  assert (Hrun : run env (addTodo config req) (newResponse w) =
                 (Returned tt, refused req text w)).
  { subst text. destruct (isTruthy (body req)) eqn:Hb.
    - by apply run_addTodo_no_description.
    - by apply run_addTodo_no_body. }
  rewrite Hrun.
  rewrite since_refused. repeat split.
Qed.

Lemma addTodo_no_description_witness :
  let '(r, w') :=
    run Sample.up (addTodo Sample.config (Sample.post (JObject ∅))) (newResponse (boot 0)) in
  r = Returned tt
  /\ sent w' = [(400%Z, message "No description!")]
  /\ since (boot 0) w' = [EvConsoleDebug [JString "addTodo"; JString "/add"];
                          EvResStatus 400;
                          EvResJson (message "No description!")]
  /\ persistenceCalls (since (boot 0) w') = []
  /\ promises w' = promises (boot 0)
  /\ readyState w' = readyState (boot 0).
Proof.
  apply (addTodo_no_description Sample.config Sample.up (Sample.post (JObject ∅)) (boot 0)).
  reflexivity.
Defined.

(** C4.  A request whose description is truthy and whose category is
    missing or falsy is answered with exactly one response, status 400 and
    body [{message: "No category!"}], without any call to the gateway, the
    driver or the model. *)
Theorem addTodo_no_category (config : Config) (env : Env) (req : Request) (w : World) :
  hasTruthy (body req) "description" = true ->
  hasTruthy (body req) "category" = false ->
  let '(r, w') := run env (addTodo config req) (newResponse w) in
  r = Returned tt
  /\ sent w' = [(400%Z, message "No category!")]
  /\ since w w' = [EvConsoleDebug [JString "addTodo"; path req];
                   EvResStatus 400;
                   EvResJson (message "No category!")]
  /\ persistenceCalls (since w w') = []
  /\ promises w' = promises w
  /\ readyState w' = readyState w.
Proof.
  intros Hd Hc. rewrite run_addTodo_no_category by assumption.
  rewrite since_refused. repeat split.
Qed.

Lemma addTodo_no_category_witness :
  let '(r, w') :=
    run Sample.up
      (addTodo Sample.config
         (Sample.post (JObject {[ "description" := JString "test-description" ]})))
      (newResponse (boot 0)) in
  r = Returned tt
  /\ sent w' = [(400%Z, message "No category!")]
  /\ since (boot 0) w' = [EvConsoleDebug [JString "addTodo"; JString "/add"];
                          EvResStatus 400;
                          EvResJson (message "No category!")]
  /\ persistenceCalls (since (boot 0) w') = []
  /\ promises w' = promises (boot 0)
  /\ readyState w' = readyState (boot 0).
Proof.
  apply (addTodo_no_category Sample.config Sample.up
           (Sample.post (JObject {[ "description" := JString "test-description" ]}))
           (boot 0)); reflexivity.
Defined.

(* ===================================================================== *)
(** * The Create-Todo handler: the success path                           *)
(* ===================================================================== *)

(** C1.  A request whose body carries a truthy description [d] and a truthy
    category [c], served while the gateway can bring the connection up,
    enters the gateway's [connect] exactly once, calls [insertMany] exactly
    once, with the object [{description: d, category: c}] whose only
    properties are those two (no [done], no [id]), and writes exactly one
    response: status 200 with body [{message: "addTodo"}]. *)
Theorem addTodo_valid (config : Config) (env : Env) (req : Request) (w : World)
    (d c : JSValue) :
  getProp (body req) "description" = Some d -> isTruthy d = true ->
  getProp (body req) "category" = Some c -> isTruthy c = true ->
  canConnect env w ->
  let '(r, w') := run env (addTodo config req) (newResponse w) in
  r = Returned tt
  /\ connectCalls (since w w') = 1
  /\ inserted (since w w') = [newDocument d c]
  /\ ownKeys (newDocument d c) = {[ "description"; "category" ]}
  /\ getProp (newDocument d c) "description" = Some d
  /\ getProp (newDocument d c) "category" = Some c
  /\ sent w' = [(200%Z, message "addTodo")].
Proof.
  intros Ed Td Ec Tc Hup.
  rewrite (run_addTodo_valid_cases config env req w d c) by assumption.
  pose proof (ownKeys_newDocument d c) as Hk.
  pose proof (getProp_newDocument_description d c) as Hd.
  pose proof (getProp_newDocument_category d c) as Hc.
  destruct (Z.eqb_spec (readyState w) 1) as [E | N].
  - rewrite since_accepted_live. repeat split; assumption.
  - destruct Hup as [E | F]; [contradiction |]. rewrite F.
    rewrite since_accepted_attempted. repeat split; assumption.
Qed.

Lemma addTodo_valid_witness :
  let '(r, w') :=
    run Sample.up (addTodo Sample.config (Sample.post Sample.testData))
      (newResponse (boot 0)) in
  r = Returned tt
  /\ connectCalls (since (boot 0) w') = 1
  /\ inserted (since (boot 0) w') =
       [newDocument (JString "test-description") (JString "test-category")]
  /\ ownKeys (newDocument (JString "test-description") (JString "test-category")) =
       {[ "description"; "category" ]}
  /\ getProp (newDocument (JString "test-description") (JString "test-category"))
       "description" = Some (JString "test-description")
  /\ getProp (newDocument (JString "test-description") (JString "test-category"))
       "category" = Some (JString "test-category")
  /\ sent w' = [(200%Z, message "addTodo")].
Proof.
  apply (addTodo_valid Sample.config Sample.up (Sample.post Sample.testData) (boot 0)
           (JString "test-description") (JString "test-category")).
  - reflexivity.
  - reflexivity.
  - reflexivity.
  - reflexivity.
  - right. reflexivity.
Defined.

(** Without the proviso on the connection the handler does not get as
    far: when the driver rejects the connection attempt,
    [await db.connect()] throws, and the run ends with no insert and no
    response. *)
Example addTodo_connection_refused :
  run Sample.down (addTodo Sample.config (Sample.post Sample.testData))
    (newResponse (boot 0)) =
  (Threw (Rejection 0),
   Gateway.attempted Sample.config Rejected (validated (Sample.post Sample.testData) (boot 0))).
Proof. vm_compute. reflexivity. Qed.

(** C5.  Whatever the request, the state of the connection and the
    behaviour of the driver, every object a run of the handler passes to
    [insertMany] has a truthy description and a truthy category: no
    partial todo is submitted. *)
Theorem addTodo_inserts_complete (config : Config) (env : Env) (req : Request)
    (w : World) (doc : JSValue) :
  doc ∈ inserted (since w (snd (run env (addTodo config req) (newResponse w)))) ->
  hasTruthy doc "description" = true /\ hasTruthy doc "category" = true.
Proof.
  destruct (isTruthy (body req)) eqn:Hb.
  2:{ rewrite run_addTodo_no_body by exact Hb. simpl.
      rewrite since_refused. simpl. intros H. by apply elem_of_nil in H. }
  destruct (hasTruthy (body req) "description") eqn:Hd.
  2:{ rewrite run_addTodo_no_description by assumption. simpl.
      rewrite since_refused. simpl. intros H. by apply elem_of_nil in H. }
  destruct (hasTruthy (body req) "category") eqn:Hc.
  2:{ rewrite run_addTodo_no_category by assumption. simpl.
      rewrite since_refused. simpl. intros H. by apply elem_of_nil in H. }
  destruct (hasTruthy_inv _ _ Hd) as (d & Ed & Td).
  destruct (hasTruthy_inv _ _ Hc) as (c & Ec & Tc).
  rewrite (run_addTodo_valid_cases config env req w d c) by assumption.
  assert (Hdoc : doc ∈ [newDocument d c] ->
                 hasTruthy doc "description" = true /\ hasTruthy doc "category" = true).
  { intros H. apply list_elem_of_singleton in H. subst doc. unfold hasTruthy.
    rewrite getProp_newDocument_description, getProp_newDocument_category.
    by split. }
  destruct (Z.eqb (readyState w) 1).
  - simpl. rewrite since_accepted_live. exact Hdoc.
  - destruct (outcome env (length (promises w))); simpl.
    + rewrite since_accepted_attempted. exact Hdoc.
    + rewrite since_attempt_rejected. simpl. intros H. by apply elem_of_nil in H.
Qed.

Lemma addTodo_inserts_complete_witness :
  hasTruthy (newDocument (JString "test-description") (JString "test-category"))
    "description" = true
  /\ hasTruthy (newDocument (JString "test-description") (JString "test-category"))
       "category" = true.
Proof.
  apply (addTodo_inserts_complete Sample.config Sample.up
           (Sample.post Sample.testData) (boot 0)).
  vm_compute. left.
Defined.

(** C8.  Of the category only the truthiness is looked at.  A request with
    a truthy description [d] and any truthy category [c], one of the labels
    of [Category] or not, gets no refusal: its one response has status 200,
    and [c] goes to [insertMany] as it came. *)
Theorem addTodo_category_unchecked (config : Config) (env : Env) (req : Request)
    (w : World) (d c : JSValue) :
  getProp (body req) "description" = Some d -> isTruthy d = true ->
  getProp (body req) "category" = Some c -> isTruthy c = true ->
  canConnect env w ->
  let w' := snd (run env (addTodo config req) (newResponse w)) in
  (exists doc, inserted (since w w') = [doc] /\ getProp doc "category" = Some c)
  /\ sent w' = [(200%Z, message "addTodo")]
  /\ EvResStatus 400 ∉ since w w'.
Proof.
  intros Ed Td Ec Tc Hup w'. subst w'.
  rewrite (run_addTodo_valid_cases config env req w d c) by assumption.
  pose proof (getProp_newDocument_category d c) as Hc.
  destruct (Z.eqb_spec (readyState w) 1) as [E | N].
  - simpl. rewrite since_accepted_live. split; [| split].
    + eauto.
    + reflexivity.
    + intros H. repeat (apply elem_of_cons in H as [H | H]; [discriminate H |]).
      by apply elem_of_nil in H.
  - destruct Hup as [E | F]; [contradiction |]. rewrite F. simpl.
    rewrite since_accepted_attempted. split; [| split].
    + eauto.
    + reflexivity.
    + intros H. repeat (apply elem_of_cons in H as [H | H]; [discriminate H |]).
      by apply elem_of_nil in H.
Qed.

Lemma addTodo_category_unchecked_witness :
  Types.isCategory (JString "test-category") = false
  /\ let w' :=
       snd (run Sample.up (addTodo Sample.config (Sample.post Sample.testData))
              (newResponse (boot 1))) in
     (exists doc, inserted (since (boot 1) w') = [doc]
                  /\ getProp doc "category" = Some (JString "test-category"))
     /\ sent w' = [(200%Z, message "addTodo")]
     /\ EvResStatus 400 ∉ since (boot 1) w'.
Proof.
  split; [reflexivity |].
  apply (addTodo_category_unchecked Sample.config Sample.up
           (Sample.post Sample.testData) (boot 1)
           (JString "test-description") (JString "test-category")).
  - reflexivity.
  - reflexivity.
  - reflexivity.
  - reflexivity.
  - left. reflexivity.
Defined.

(** C7.  The handler does not wait for the insert.  For the request
    [{description: "test-description", category: "test-category"}] on a
    disconnected server the acknowledgment [{message: "addTodo"}] is
    written right after [insertMany] was called, while the promise of that
    call (number 1) is pending; it is still pending when the handler has
    returned. *)
Theorem addTodo_responds_before_insert_settles :
  let '(r, w') :=
    run Sample.up (addTodo Sample.config (Sample.post Sample.testData))
      (newResponse (boot 0)) in
  r = Returned tt
  /\ since (boot 0) w' =
       [EvConsoleDebug [JString "addTodo"; JString "/add"];
        EvDbConnect;
        EvMongooseConnect (MONGO_DB_URL Sample.config) 0;
        EvSettled 0 Fulfilled;
        EvInsertMany (newDocument (JString "test-description") (JString "test-category")) 1;
        EvResJson (message "addTodo")]
  /\ respondsDuringInsert [] (since (boot 0) w') = true
  /\ sent w' = [(200%Z, message "addTodo")]
  /\ isPending w' 1 = true.
Proof. vm_compute. repeat split. Qed.

(** The same on every valid request, whatever the server's state: the
    response is written while the insert is in flight. *)
Lemma addTodo_never_awaits_insert (config : Config) (env : Env) (req : Request)
    (w : World) (d c : JSValue) :
  getProp (body req) "description" = Some d -> isTruthy d = true ->
  getProp (body req) "category" = Some c -> isTruthy c = true ->
  canConnect env w ->
  respondsDuringInsert []
    (since w (snd (run env (addTodo config req) (newResponse w)))) = true.
Proof.
  intros Ed Td Ec Tc Hup.
  rewrite (run_addTodo_valid_cases config env req w d c) by assumption.
  destruct (Z.eqb_spec (readyState w) 1) as [E | N].
  - simpl. rewrite since_accepted_live. reflexivity.
  - destruct Hup as [E | F]; [contradiction |]. rewrite F. simpl.
    rewrite since_accepted_attempted. reflexivity.
Qed.

(* ===================================================================== *)
(** * The List-Todos handler                                              *)
(* ===================================================================== *)

(** C9.  Every request to the List-Todos handler is answered with exactly
    one response, status 200, whose body is one todo made on the spot: its
    [id] is the number [Math.random] returned, its [done] is [false] (and
    description and category are the fixed "description" and "hobby").  The
    run is the debug line, the draw and the response: the gateway, the
    driver and the model are not called. *)
Theorem getTodos_fabricates (env : Env) (req : Request) (w : World) :
  let '(r, w') := run env (getTodos req) (newResponse w) in
  let newTodo :=
    {| Types.id := random env (draws w);
       Types.description := "description";
       Types.done := false;
       Types.category := Types.hobby |} in
  r = Returned tt
  /\ sent w' = [(200%Z, Types.Todo_value newTodo)]
  /\ getProp (Types.Todo_value newTodo) "id" = Some (JNumber (random env (draws w)))
  /\ getProp (Types.Todo_value newTodo) "done" = Some (JBool false)
  /\ since w w' = [EvConsoleDebug [JString "getTodos"; path req];
                   EvMathRandom (random env (draws w));
                   EvResJson (Types.Todo_value newTodo)]
  /\ persistenceCalls (since w w') = []
  /\ promises w' = promises w
  /\ readyState w' = readyState w.
Proof.
  simpl.
  set (newTodo := {| Types.id := random env (draws w);
                     Types.description := "description";
                     Types.done := false;
                     Types.category := Types.hobby |}).
  assert (Hs : since w
                 (log (EvResJson (Types.Todo_value newTodo))
                    {| readyState := readyState w; promises := promises w;
                       statusCode := 200;
                       sent := [(200%Z, Types.Todo_value newTodo)];
                       draws := S (draws w);
                       trace := (trace w ++ [EvConsoleDebug [JString "getTodos"; path req]])
                                ++ [EvMathRandom (random env (draws w))] |}) =
               [EvConsoleDebug [JString "getTodos"; path req];
                EvMathRandom (random env (draws w));
                EvResJson (Types.Todo_value newTodo)]).
  { apply since_app. simpl. by rewrite <- !app_assoc. }
  rewrite Hs.
  repeat split; unfold Types.Todo_value; simpl; by simplify_map_eq.
Qed.

(** [GET /api/todos] on a disconnected server, with 0.5 drawn. *)
Example getTodos_sample :
  run Sample.up (getTodos Sample.get) (newResponse (boot 0)) =
  (Returned tt,
   let newTodo := Types.Todo_value (Types.mkTodo Sample.half "description" false Types.hobby) in
   {| readyState := 0; promises := []; statusCode := 200;
      sent := [(200%Z, newTodo)]; draws := 1;
      trace := [EvConsoleDebug [JString "getTodos"; JString "/"];
                EvMathRandom Sample.half;
                EvResJson newTodo] |}).
Proof. vm_compute. reflexivity. Qed.

(* ===================================================================== *)
(** * The persistence gateway                                             *)
(* ===================================================================== *)

(** C6.  [connect] is idempotent.  On a connection that is not live, and
    with a driver that brings it up, a first [connect] makes one call of
    [mongoose.connect] and returns with the connection live; a second
    [connect] right after it finds [readyState] equal to 1 and returns at
    once: apart from the record of its own entry it changes nothing.  The
    two calls in sequence make exactly one call of [mongoose.connect]. *)
Theorem connect_idempotent (config : Config) (env : Env) (w : World) :
  readyState w ≠ 1%Z ->
  outcome env (length (promises w)) = Fulfilled ->
  let '(r1, w1) := run env (Gateway.connect config) w in
  let '(r2, w2) := run env (Gateway.connect config) w1 in
  r1 = Returned tt /\ r2 = Returned tt
  /\ readyState w1 = 1%Z
  /\ connectionAttempts (since w w1) = 1
  /\ w2 = log EvDbConnect w1
  /\ connectionAttempts (since w1 w2) = 0
  /\ connectionAttempts (since w w2) = 1
  /\ run env (Gateway.connect config;; Gateway.connect config) w = (Returned tt, w2).
Proof.
  intros N F.
  pose proof (run_connect_not_live config env w N) as R1. rewrite F in R1.
  assert (L : readyState (Gateway.attempted config Fulfilled w) = 1%Z) by reflexivity.
  pose proof (run_connect_live config env _ L) as R2.
  rewrite R1, R2.
  assert (S1 : since w (Gateway.attempted config Fulfilled w) =
               [EvDbConnect;
                EvMongooseConnect (MONGO_DB_URL config) (length (promises w));
                EvSettled (length (promises w)) Fulfilled])
    by (apply since_app; reflexivity).
  assert (S2 : since (Gateway.attempted config Fulfilled w)
                 (log EvDbConnect (Gateway.attempted config Fulfilled w)) =
               [EvDbConnect])
    by (apply since_app; reflexivity).
  assert (S3 : since w (log EvDbConnect (Gateway.attempted config Fulfilled w)) =
               [EvDbConnect;
                EvMongooseConnect (MONGO_DB_URL config) (length (promises w));
                EvSettled (length (promises w)) Fulfilled;
                EvDbConnect])
    by (apply since_app; simpl; by rewrite <- !app_assoc).
  rewrite S1, S2, S3.
  repeat split.
  rewrite run_bind, R1. exact R2.
Qed.

Lemma connect_idempotent_witness :
  let '(r1, w1) := run Sample.up (Gateway.connect Sample.config) (boot 0) in
  let '(r2, w2) := run Sample.up (Gateway.connect Sample.config) w1 in
  r1 = Returned tt /\ r2 = Returned tt
  /\ readyState w1 = 1%Z
  /\ connectionAttempts (since (boot 0) w1) = 1
  /\ w2 = log EvDbConnect w1
  /\ connectionAttempts (since w1 w2) = 0
  /\ connectionAttempts (since (boot 0) w2) = 1
  /\ run Sample.up (Gateway.connect Sample.config;; Gateway.connect Sample.config) (boot 0)
     = (Returned tt, w2).
Proof.
  apply (connect_idempotent Sample.config Sample.up (boot 0)).
  - discriminate.
  - reflexivity.
Defined.

(** C10.  [connect] returns without calling the driver exactly when
    [readyState] is 1.  In every other state (disconnected, connecting,
    disconnecting, anything else) its synchronous part calls
    [mongoose.connect] and suspends on the promise.  So a second [connect]
    that is called while the first one is suspended, its attempt still
    pending and the connection [connecting], calls [mongoose.connect]
    again: two attempts are in flight. *)
Theorem connect_skips_only_when_connected (config : Config) (env : Env) (w : World) :
  let '(t1, w1) := start env (Gateway.connect config) w in
  let '(t2, w2) := start env (Gateway.connect config) w1 in
  if Z.eqb (readyState w) 1 then
    t1 = Finished (Returned tt)
    /\ connectionAttempts (since w w1) = 0
  else
    t1 = Suspended (length (promises w)) (Return tt)
    /\ connectionAttempts (since w w1) = 1
    /\ isPending w1 (length (promises w)) = true
    /\ readyState w1 = ConnectionStates.connecting
    /\ t2 = Suspended (S (length (promises w))) (Return tt)
    /\ connectionAttempts (since w1 w2) = 1
    /\ connectionAttempts (since w w2) = 2
    /\ isPending w2 (length (promises w)) = true
    /\ isPending w2 (S (length (promises w))) = true.
Proof.
  destruct (Z.eqb_spec (readyState w) 1) as [E | N].
  - rewrite start_connect_live by exact E.
    destruct (start env (Gateway.connect config) (log EvDbConnect w)) as [t2 w2].
    split; [reflexivity |].
    assert (S1 : since w (log EvDbConnect w) = [EvDbConnect])
      by (apply since_app; reflexivity).
    by rewrite S1.
  - rewrite start_connect_not_live by exact N.
    assert (N' : readyState (Gateway.attempting config w) ≠ 1%Z) by discriminate.
    rewrite start_connect_not_live by exact N'.
    assert (S1 : since w (Gateway.attempting config w) =
                 [EvDbConnect;
                  EvMongooseConnect (MONGO_DB_URL config) (length (promises w))])
      by (apply since_app; reflexivity).
    assert (S2 : since (Gateway.attempting config w)
                   (Gateway.attempting config (Gateway.attempting config w)) =
                 [EvDbConnect;
                  EvMongooseConnect (MONGO_DB_URL config)
                    (length (promises (Gateway.attempting config w)))])
      by (apply since_app; reflexivity).
    assert (S3 : since w (Gateway.attempting config (Gateway.attempting config w)) =
                 [EvDbConnect;
                  EvMongooseConnect (MONGO_DB_URL config) (length (promises w));
                  EvDbConnect;
                  EvMongooseConnect (MONGO_DB_URL config)
                    (length (promises (Gateway.attempting config w)))])
      by (apply since_app; simpl; by rewrite <- !app_assoc).
    rewrite S1, S2, S3.
    assert (Len : length (promises (Gateway.attempting config w)) = S (length (promises w)))
      by (simpl; rewrite length_app; simpl; lia).
    rewrite Len.
    repeat split.
    + unfold isPending; simpl. by rewrite lookup_fresh.
    + unfold isPending; simpl.
      rewrite lookup_app_l by (rewrite length_app; simpl; lia).
      by rewrite lookup_fresh.
    + unfold isPending; simpl.
      replace (S (length (promises w)))
        with (length (promises w ++ [(OpConnect, Pending)]))
        by (rewrite length_app; simpl; lia).
      by rewrite lookup_fresh.
Qed.

(** The two overlapping calls on a disconnected server. *)
Example connect_overlapping :
  let '(t1, w1) := start Sample.up (Gateway.connect Sample.config) (boot 0) in
  let '(t2, w2) := start Sample.up (Gateway.connect Sample.config) w1 in
  trace w2 = [EvDbConnect; EvMongooseConnect (MONGO_DB_URL Sample.config) 0;
              EvDbConnect; EvMongooseConnect (MONGO_DB_URL Sample.config) 1]
  /\ promises w2 = [(OpConnect, Pending); (OpConnect, Pending)].
Proof. vm_compute. split; reflexivity. Qed.

(* ===================================================================== *)
(** * The unit tests of addTodo.test.ts, replayed                         *)
(* ===================================================================== *)

(** "should response with bad request if body is missing" *)
Example test_body_missing :
  let w' := snd (run Sample.up (addTodo Sample.config Sample.empty) (newResponse (boot 0))) in
  trace w' = [EvConsoleDebug [JString "addTodo"; JUndefined];
              EvResStatus 400;
              EvResJson (message "No body!")].
Proof. vm_compute. reflexivity. Qed.

(** "should response with bad request if description is missing" *)
Example test_description_missing :
  let req := {| path := JUndefined; body := JObject ∅ |} in
  let w' := snd (run Sample.up (addTodo Sample.config req) (newResponse (boot 0))) in
  trace w' = [EvConsoleDebug [JString "addTodo"; JUndefined];
              EvResStatus 400;
              EvResJson (message "No description!")].
Proof. vm_compute. reflexivity. Qed.

(** "should response with bad request if category is missing" *)
Example test_category_missing :
  let req := {| path := JUndefined;
                body := JObject {[ "description" := JString "test-description" ]} |} in
  let w' := snd (run Sample.up (addTodo Sample.config req) (newResponse (boot 0))) in
  trace w' = [EvConsoleDebug [JString "addTodo"; JUndefined];
              EvResStatus 400;
              EvResJson (message "No category!")].
Proof. vm_compute. reflexivity. Qed.

(** "should insert into database and response with message"; the test
    replaces the gateway by a spy, here the connection is live and the
    gateway returns at once. *)
Example test_insert_and_respond :
  let req := {| path := JUndefined; body := Sample.testData |} in
  let w' := snd (run Sample.up (addTodo Sample.config req) (newResponse (boot 1))) in
  connectCalls (trace w') = 1
  /\ inserted (trace w') = [Sample.testData]
  /\ sent w' = [(200%Z, message "addTodo")].
Proof. vm_compute. repeat split. Qed.

(* ===================================================================== *)
(** * More about the runtime                                              *)
(* ===================================================================== *)

Section MoreRuntimeFacts.

Context (env : Env).


Lemma since_trans (w0 w1 w2 : World) (l1 l2 : list Event) :
  trace w1 = trace w0 ++ l1 -> trace w2 = trace w1 ++ l2 ->
  trace w2 = trace w0 ++ (l1 ++ l2).
Proof. intros H1 H2. by rewrite H2, H1, <- app_assoc. Qed.

Lemma inserted_app (l1 l2 : list Event) :
  inserted (l1 ++ l2) = inserted l1 ++ inserted l2.
Proof.
  induction l1 as [| e l1 IH]; simpl; [reflexivity |].
  destruct e; simpl; by rewrite ?IH.
Qed.

Lemma connectionAttempts_app (l1 l2 : list Event) :
  connectionAttempts (l1 ++ l2) = connectionAttempts l1 + connectionAttempts l2.
Proof. unfold connectionAttempts. by rewrite List.filter_app, length_app. Qed.

Lemma connectCalls_app (l1 l2 : list Event) :
  connectCalls (l1 ++ l2) = connectCalls l1 + connectCalls l2.
Proof. unfold connectCalls. by rewrite List.filter_app, length_app. Qed.

End MoreRuntimeFacts.

(* ===================================================================== *)
(** * More about the Create-Todo handler                                  *)
(* ===================================================================== *)

(** Every run of [addTodo] is one of the six. *)
Lemma addTodo_run_spec (config : Config) (env : Env) (req : Request) (w : World) :
  AddTodoRun config env req w (run env (addTodo config req) (newResponse w)).
Proof.
  destruct (isTruthy (body req)) eqn:Hb.
  2:{ rewrite run_addTodo_no_body by exact Hb. by constructor. }
  destruct (hasTruthy (body req) "description") eqn:Hd.
  2:{ rewrite run_addTodo_no_description by assumption. by constructor. }
  destruct (hasTruthy (body req) "category") eqn:Hc.
  2:{ rewrite run_addTodo_no_category by assumption. by constructor. }
  destruct (hasTruthy_inv _ _ Hd) as (d & Ed & Td).
  destruct (hasTruthy_inv _ _ Hc) as (c & Ec & Tc).
  rewrite (run_addTodo_valid_cases config env req w d c) by assumption.
  destruct (Z.eqb_spec (readyState w) 1) as [E | N].
  - by apply (RunLive config env req w d c).
  - destruct (outcome env (length (promises w))) eqn:F.
    + by apply (RunConnected config env req w d c).
    + by apply (RunConnectionFailed config env req w d c).
Qed.

(* ===================================================================== *)
(** * More about the gateway                                              *)
(* ===================================================================== *)

Section MoreGatewayFacts.

Context (config : Config) (env : Env).

Lemma since_entered (w : World) : since w (log EvDbConnect w) = [EvDbConnect].
Proof. apply since_app. reflexivity. Qed.

Lemma since_attempted (s : Settlement) (w : World) :
  since w (Gateway.attempted config s w) =
    [EvDbConnect;
     EvMongooseConnect (MONGO_DB_URL config) (length (promises w));
     EvSettled (length (promises w)) s].
Proof. apply since_app. reflexivity. Qed.

(** The three runs of [connect]. *)
Lemma run_connect_cases (w : World) :
  run env (Gateway.connect config) w =
    if Z.eqb (readyState w) 1 then (Returned tt, log EvDbConnect w)
    else match outcome env (length (promises w)) with
         | Fulfilled => (Returned tt, Gateway.attempted config Fulfilled w)
         | Rejected => (Threw (Rejection (length (promises w))),
                        Gateway.attempted config Rejected w)
         end.
Proof.
  destruct (Z.eqb_spec (readyState w) 1) as [E | N].
  - by apply run_connect_live.
  - by apply run_connect_not_live.
Qed.

End MoreGatewayFacts.



(** X2.  The only way [connect] fails is the rejection of the attempt it
    started itself: it throws only when called on a connection that is not
    live and the driver rejects, the error is that rejection, and the
    connection is left disconnected with the response untouched. *)
Theorem connect_throws_only_rejection (config : Config) (env : Env) (w w' : World)
    (e : Error) :
  run env (Gateway.connect config) w = (Threw e, w') ->
  e = Rejection (length (promises w))
  /\ readyState w ≠ 1%Z
  /\ outcome env (length (promises w)) = Rejected
  /\ readyState w' = ConnectionStates.disconnected
  /\ connectionAttempts (since w w') = 1
  /\ sent w' = sent w.
Proof.
  rewrite run_connect_cases.
  destruct (Z.eqb_spec (readyState w) 1) as [E | N]; [discriminate |].
  destruct (outcome env (length (promises w))) eqn:F; [discriminate |].
  intros [= <- <-]. rewrite since_attempted. by repeat split.
Qed.

Lemma connect_throws_only_rejection_witness :
  Rejection 0 = Rejection (length (promises (boot 0)))
  /\ readyState (boot 0) ≠ 1%Z
  /\ outcome Sample.down (length (promises (boot 0))) = Rejected
  /\ readyState (Gateway.attempted Sample.config Rejected (boot 0)) =
       ConnectionStates.disconnected
  /\ connectionAttempts (since (boot 0) (Gateway.attempted Sample.config Rejected (boot 0))) = 1
  /\ sent (Gateway.attempted Sample.config Rejected (boot 0)) = sent (boot 0).
Proof.
  apply (connect_throws_only_rejection Sample.config Sample.down (boot 0)).
  reflexivity.
Defined.

(** X3.  A failed attempt is not remembered.  After a [connect] that the
    driver rejected, the next [connect] calls the driver again, and returns
    with the connection live if this second attempt is fulfilled. *)
Theorem connect_retries_after_failure (config : Config) (env : Env) (w : World) :
  readyState w ≠ 1%Z ->
  outcome env (length (promises w)) = Rejected ->
  outcome env (S (length (promises w))) = Fulfilled ->
  let '(r1, w1) := run env (Gateway.connect config) w in
  let '(r2, w2) := run env (Gateway.connect config) w1 in
  r1 = Threw (Rejection (length (promises w)))
  /\ r2 = Returned tt
  /\ readyState w2 = ConnectionStates.connected
  /\ connectionAttempts (since w1 w2) = 1
  /\ connectionAttempts (since w w2) = 2.
Proof.
  intros N F1 F2.
  rewrite (run_connect_not_live config env w N), F1.
  assert (N1 : readyState (Gateway.attempted config Rejected w) ≠ 1%Z) by discriminate.
  assert (L1 : length (promises (Gateway.attempted config Rejected w))
               = S (length (promises w)))
    by (simpl; rewrite length_app; simpl; lia).
  rewrite (run_connect_not_live config env _ N1), L1, F2.
  rewrite since_attempted.
  assert (S2 : since w (Gateway.attempted config Fulfilled
                          (Gateway.attempted config Rejected w)) =
               [EvDbConnect;
                EvMongooseConnect (MONGO_DB_URL config) (length (promises w));
                EvSettled (length (promises w)) Rejected;
                EvDbConnect;
                EvMongooseConnect (MONGO_DB_URL config)
                  (length (promises (Gateway.attempted config Rejected w)));
                EvSettled (length (promises (Gateway.attempted config Rejected w)))
                  Fulfilled])
    by (apply since_app; simpl; by rewrite <- !app_assoc).
  rewrite S2. by repeat split.
Qed.

Lemma connect_retries_after_failure_witness :
  let env := {| outcome := fun p => if Nat.eqb p 0 then Rejected else Fulfilled;
                random := fun _ => Sample.half |} in
  let '(r1, w1) := run env (Gateway.connect Sample.config) (boot 0) in
  let '(r2, w2) := run env (Gateway.connect Sample.config) w1 in
  r1 = Threw (Rejection 0)
  /\ r2 = Returned tt
  /\ readyState w2 = ConnectionStates.connected
  /\ connectionAttempts (since w1 w2) = 1
  /\ connectionAttempts (since (boot 0) w2) = 2.
Proof.
  apply (connect_retries_after_failure Sample.config
           {| outcome := fun p => if Nat.eqb p 0 then Rejected else Fulfilled;
              random := fun _ => Sample.half |} (boot 0)).
  - discriminate.
  - reflexivity.
  - reflexivity.
Defined.

(** X4.  What [connect] leaves alone: it is entered once, calls the driver
    at most once, never calls [insertMany], writes nothing to the response
    and draws no random number; the promises that existed before the call
    are as they were. *)
Theorem connect_footprint (config : Config) (env : Env) (w : World) :
  let w' := snd (run env (Gateway.connect config) w) in
  connectCalls (since w w') = 1
  /\ connectionAttempts (since w w') <= 1
  /\ inserted (since w w') = []
  /\ sent w' = sent w
  /\ statusCode w' = statusCode w
  /\ draws w' = draws w
  /\ (forall p, p < length (promises w) -> promises w' !! p = promises w !! p).
Proof.
  rewrite run_connect_cases.
  destruct (Z.eqb (readyState w) 1).
  - simpl. rewrite since_entered. repeat split.
    unfold connectionAttempts; simpl; lia.
  - destruct (outcome env (length (promises w))); simpl;
      rewrite since_attempted; repeat split;
      try (unfold connectionAttempts; simpl; lia);
      intros p Hp; simpl; by rewrite lookup_app_l.
Qed.

(* ===================================================================== *)
(** * The Create-Todo handler: outcomes, failures, what is ignored        *)
(* ===================================================================== *)

(** X5.  A call of [addTodo] ends in one of two ways, for every request,
    body of any shape included.  It returns, and then it has written
    exactly one response, of status 200 or 400.  Or it throws, and then
    the error is the rejection of the connection attempt it made (never a
    TypeError from reading the body), no response was written and nothing
    was inserted. *)
Theorem addTodo_outcomes (config : Config) (env : Env) (req : Request) (w : World) :
  let '(r, w') := run env (addTodo config req) (newResponse w) in
  match r with
  | Returned _ =>
      exists code text, sent w' = [(code, message text)] /\ (code = 200%Z \/ code = 400%Z)
  | Threw e =>
      e = Rejection (length (promises w))
      /\ outcome env (length (promises w)) = Rejected
      /\ sent w' = []
      /\ inserted (since w w') = []
      /\ readyState w' = ConnectionStates.disconnected
  end.
Proof.
  destruct (addTodo_run_spec config env req w).
  - exists 400%Z, "No body!". by split; [| right].
  - exists 400%Z, "No description!". by split; [| right].
  - exists 400%Z, "No category!". by split; [| right].
  - exists 200%Z, "addTodo". by split; [| left].
  - exists 200%Z, "addTodo". by split; [| left].
  - rewrite since_attempt_rejected. by repeat split.
Qed.

(** X6.  A request that failed on the connection does not poison the
    server.  When a valid request finds the connection down and the driver
    rejects, it throws without a response; a valid request served next
    makes a new attempt, and if that one is fulfilled it stores its
    document and is answered 200. *)
Theorem addTodo_recovers (config : Config) (env : Env) (req1 req2 : Request)
    (w : World) (d1 c1 d2 c2 : JSValue) :
  getProp (body req1) "description" = Some d1 -> isTruthy d1 = true ->
  getProp (body req1) "category" = Some c1 -> isTruthy c1 = true ->
  getProp (body req2) "description" = Some d2 -> isTruthy d2 = true ->
  getProp (body req2) "category" = Some c2 -> isTruthy c2 = true ->
  readyState w ≠ 1%Z ->
  outcome env (length (promises w)) = Rejected ->
  outcome env (S (length (promises w))) = Fulfilled ->
  let '(r1, w1) := run env (addTodo config req1) (newResponse w) in
  let '(r2, w2) := run env (addTodo config req2) (newResponse w1) in
  r1 = Threw (Rejection (length (promises w)))
  /\ sent w1 = []
  /\ r2 = Returned tt
  /\ sent w2 = [(200%Z, message "addTodo")]
  /\ inserted (since w1 w2) = [newDocument d2 c2]
  /\ connectionAttempts (since w1 w2) = 1
  /\ readyState w2 = ConnectionStates.connected.
Proof.
  intros Ed1 Td1 Ec1 Tc1 Ed2 Td2 Ec2 Tc2 N F1 F2.
  rewrite (run_addTodo_valid_cases config env req1 w d1 c1) by assumption.
  destruct (Z.eqb_spec (readyState w) 1) as [E | _]; [contradiction |].
  rewrite F1.
  set (w1 := Gateway.attempted config Rejected (validated req1 w)).
  rewrite (run_addTodo_valid_cases config env req2 w1 d2 c2) by assumption.
  assert (L1 : length (promises w1) = S (length (promises w)))
    by (subst w1; simpl; rewrite length_app; simpl; lia).
  destruct (Z.eqb_spec (readyState w1) 1) as [E | _]; [discriminate E |].
  rewrite L1, F2, since_accepted_attempted. by repeat split.
Qed.

Lemma addTodo_recovers_witness :
  let env := {| outcome := fun p => if Nat.eqb p 0 then Rejected else Fulfilled;
                random := fun _ => Sample.half |} in
  let '(r1, w1) :=
    run env (addTodo Sample.config (Sample.post Sample.testData)) (newResponse (boot 0)) in
  let '(r2, w2) :=
    run env (addTodo Sample.config (Sample.post Sample.testData)) (newResponse w1) in
  r1 = Threw (Rejection 0)
  /\ sent w1 = []
  /\ r2 = Returned tt
  /\ sent w2 = [(200%Z, message "addTodo")]
  /\ inserted (since w1 w2) =
       [newDocument (JString "test-description") (JString "test-category")]
  /\ connectionAttempts (since w1 w2) = 1
  /\ readyState w2 = ConnectionStates.connected.
Proof.
  apply (addTodo_recovers Sample.config
           {| outcome := fun p => if Nat.eqb p 0 then Rejected else Fulfilled;
              random := fun _ => Sample.half |}
           (Sample.post Sample.testData) (Sample.post Sample.testData) (boot 0)
           (JString "test-description") (JString "test-category")
           (JString "test-description") (JString "test-category"));
    first [reflexivity | discriminate].
Defined.



(** X8.  Of a request the handler uses the truthiness of the body and the
    two properties [description] and [category], and nothing else.  Two
    requests that agree on these are treated alike, whatever else their
    bodies carry ([done], [id], ...) and whatever their paths: same
    outcome, same response, same calls to gateway, driver and model, same
    document inserted. *)
Theorem addTodo_reads_two_fields (config : Config) (env : Env) (req1 req2 : Request)
    (w : World) :
  isTruthy (body req1) = isTruthy (body req2) ->
  getProp (body req1) "description" = getProp (body req2) "description" ->
  getProp (body req1) "category" = getProp (body req2) "category" ->
  let '(r1, w1) := run env (addTodo config req1) (newResponse w) in
  let '(r2, w2) := run env (addTodo config req2) (newResponse w) in
  r1 = r2
  /\ sent w1 = sent w2
  /\ persistenceCalls (since w w1) = persistenceCalls (since w w2)
  /\ inserted (since w w1) = inserted (since w w2)
  /\ promises w1 = promises w2
  /\ readyState w1 = readyState w2.
Proof.
  intros Eb Ed Ec.
  assert (Hd : hasTruthy (body req1) "description" = hasTruthy (body req2) "description")
    by (unfold hasTruthy; by rewrite Ed).
  assert (Hc : hasTruthy (body req1) "category" = hasTruthy (body req2) "category")
    by (unfold hasTruthy; by rewrite Ec).
  destruct (addTodo_run_spec config env req1 w)
    as [B | B D | B D C | d c D1 T1 C1 T2 L | d c D1 T1 C1 T2 N F | d c D1 T1 C1 T2 N F].
  - rewrite run_addTodo_no_body by congruence.
    rewrite !since_refused. by repeat split.
  - rewrite run_addTodo_no_description by congruence.
    rewrite !since_refused. by repeat split.
  - rewrite run_addTodo_no_category by congruence.
    rewrite !since_refused. by repeat split.
  - rewrite (run_addTodo_valid_cases config env req2 w d c) by congruence.
    destruct (Z.eqb_spec (readyState w) 1) as [_ | N]; [| contradiction].
    rewrite !since_accepted_live. by repeat split.
  - rewrite (run_addTodo_valid_cases config env req2 w d c) by congruence.
    destruct (Z.eqb_spec (readyState w) 1) as [E | _]; [contradiction |].
    rewrite F, !since_accepted_attempted. by repeat split.
  - rewrite (run_addTodo_valid_cases config env req2 w d c) by congruence.
    destruct (Z.eqb_spec (readyState w) 1) as [E | _]; [contradiction |].
    rewrite F, !since_attempt_rejected. by repeat split.
Qed.

Lemma addTodo_reads_two_fields_witness :
  let extended :=
    {| path := JString "/elsewhere";
       body := JObject {[ "description" := JString "test-description";
                          "category" := JString "test-category";
                          "done" := JBool true;
                          "id" := JNumber Sample.half ]} |} in
  let '(r1, w1) :=
    run Sample.up (addTodo Sample.config (Sample.post Sample.testData)) (newResponse (boot 0)) in
  let '(r2, w2) := run Sample.up (addTodo Sample.config extended) (newResponse (boot 0)) in
  r1 = r2
  /\ sent w1 = sent w2
  /\ persistenceCalls (since (boot 0) w1) = persistenceCalls (since (boot 0) w2)
  /\ inserted (since (boot 0) w1) = inserted (since (boot 0) w2)
  /\ promises w1 = promises w2
  /\ readyState w1 = readyState w2.
Proof.
  apply (addTodo_reads_two_fields Sample.config Sample.up (Sample.post Sample.testData)
           {| path := JString "/elsewhere";
              body := JObject {[ "description" := JString "test-description";
                                 "category" := JString "test-category";
                                 "done" := JBool true;
                                 "id" := JNumber Sample.half ]} |}
           (boot 0)); reflexivity.
Defined.



(* ===================================================================== *)
(** * The Create-Todo handler: what happens before the first await        *)
(* ===================================================================== *)

(** X10.  A refusal is complete when the call returns its promise: for a
    request that fails one of the three checks the synchronous part of
    [addTodo] runs to the end, the 400 response already written.  (The
    unit tests rely on it: they check the refusals without awaiting the
    call.) *)
Theorem addTodo_refuses_synchronously (config : Config) (env : Env) (req : Request)
    (w : World) :
  hasTruthy (body req) "description" && hasTruthy (body req) "category" = false ->
  exists text,
    start env (addTodo config req) (newResponse w) =
      (Finished (Returned tt), refused req text w)
    /\ run env (addTodo config req) (newResponse w) = (Returned tt, refused req text w).
Proof.
  intros Hv.
  assert (Hsync : forall text,
             run env (addTodo config req) (newResponse w) = (Returned tt, refused req text w) ->
             match start env (addTodo config req) (newResponse w) with
             | (Finished _, _) => True
             | (Suspended _ _, _) => False
             end ->
             start env (addTodo config req) (newResponse w) =
               (Finished (Returned tt), refused req text w)).
  { intros text Hrun. rewrite run_start in Hrun.
    destruct (start env (addTodo config req) (newResponse w)) as [[r | p k] w1];
      [| contradiction].
    intros _. simpl in Hrun. by injection Hrun as -> ->. }
  destruct (isTruthy (body req)) eqn:Hb.
  2:{ exists "No body!". split; [| by apply run_addTodo_no_body].
      apply Hsync; [by apply run_addTodo_no_body |].
      unfold addTodo. simpl. by rewrite Hb. }
  destruct (getProp_truthy _ "description" Hb) as [d Ed].
  destruct (getProp_truthy _ "category" Hb) as [c Ec].
  destruct (hasTruthy (body req) "description") eqn:Hd.
  2:{ exists "No description!". split; [| by apply run_addTodo_no_description].
      apply Hsync; [by apply run_addTodo_no_description |].
      unfold hasTruthy in Hd. rewrite Ed in Hd.
      unfold addTodo. simpl. rewrite Hb. simpl. unfold read. rewrite Ed.
      simpl. by rewrite Hd. }
  simpl in Hv.
  exists "No category!". split; [| by apply run_addTodo_no_category].
  apply Hsync; [by apply run_addTodo_no_category |].
  unfold hasTruthy in Hd, Hv. rewrite Ed in Hd. rewrite Ec in Hv.
  unfold addTodo. simpl. rewrite Hb. simpl. unfold read. rewrite Ed.
  simpl. rewrite Hd. simpl. rewrite Ec. simpl. by rewrite Hv.
Qed.

Lemma addTodo_refuses_synchronously_witness :
  exists text,
    start Sample.up (addTodo Sample.config Sample.empty) (newResponse (boot 0)) =
      (Finished (Returned tt), refused Sample.empty text (boot 0))
    /\ run Sample.up (addTodo Sample.config Sample.empty) (newResponse (boot 0)) =
         (Returned tt, refused Sample.empty text (boot 0)).
Proof.
  apply (addTodo_refuses_synchronously Sample.config Sample.up Sample.empty (boot 0)).
  reflexivity.
Defined.



(* ===================================================================== *)
(** * The Create-Todo handler: bodies and types                           *)
(* ===================================================================== *)

(** X12.  A body that is truthy but not an object (an array, a non-empty
    string, a non-zero number, [true]) has no description: reading the
    property gives [undefined], not an error, and the request is refused
    with 400 [{message: "No description!"}] without touching the
    persistence side. *)
Theorem addTodo_non_object_body (config : Config) (env : Env) (req : Request)
    (w : World) :
  isTruthy (body req) = true ->
  (forall fields, body req ≠ JObject fields) ->
  let '(r, w') := run env (addTodo config req) (newResponse w) in
  r = Returned tt
  /\ sent w' = [(400%Z, message "No description!")]
  /\ persistenceCalls (since w w') = [].
Proof.
  intros Hb Hno.
  assert (Hd : hasTruthy (body req) "description" = false).
  { unfold hasTruthy. destruct (body req) as [| | b | x | s | xs | fields];
      try reflexivity. by destruct (Hno fields). }
  rewrite run_addTodo_no_description by assumption.
  rewrite since_refused. by repeat split.
Qed.

Lemma addTodo_non_object_body_witness :
  let '(r, w') :=
    run Sample.up
      (addTodo Sample.config (Sample.post (JArray [Sample.testData])))
      (newResponse (boot 0)) in
  r = Returned tt
  /\ sent w' = [(400%Z, message "No description!")]
  /\ persistenceCalls (since (boot 0) w') = [].
Proof.
  apply (addTodo_non_object_body Sample.config Sample.up
           (Sample.post (JArray [Sample.testData])) (boot 0)).
  - reflexivity.
  - discriminate.
Defined.

(** X13.  No well-typed input is turned away.  A body whose description is
    a non-empty string and whose category is one of the labels of
    [Category], with or without further properties, passes the three
    checks: where the gateway can connect the answer is 200 and the
    document [{description, category}] is inserted. *)
Theorem addTodo_accepts_typed_input (config : Config) (env : Env) (req : Request)
    (w : World) (fields : gmap string JSValue) (text : string) (label : Types.Category) :
  body req = JObject fields ->
  fields !! "description" = Some (JString text) ->
  text ≠ "" ->
  fields !! "category" = Some (JString (Types.Category_label label)) ->
  canConnect env w ->
  let '(r, w') := run env (addTodo config req) (newResponse w) in
  r = Returned tt
  /\ sent w' = [(200%Z, message "addTodo")]
  /\ inserted (since w w') =
       [newDocument (JString text) (JString (Types.Category_label label))].
Proof.
  intros Hbody Hd Htext Hc Hup.
  assert (Ed : getProp (body req) "description" = Some (JString text))
    by (rewrite Hbody; simpl; by rewrite Hd).
  assert (Ec : getProp (body req) "category" =
               Some (JString (Types.Category_label label)))
    by (rewrite Hbody; simpl; by rewrite Hc).
  assert (Td : isTruthy (JString text) = true).
  { simpl. destruct (String.eqb_spec text ""); [contradiction | reflexivity]. }
  assert (Tc : isTruthy (JString (Types.Category_label label)) = true)
    by (by destruct label).
  rewrite (run_addTodo_valid_cases config env req w _ _ Ed Td Ec Tc).
  destruct (Z.eqb_spec (readyState w) 1) as [E | N].
  - rewrite since_accepted_live. by repeat split.
  - destruct Hup as [E | F]; [contradiction |]. rewrite F.
    rewrite since_accepted_attempted. by repeat split.
Qed.

Lemma addTodo_accepts_typed_input_witness :
  let fields : gmap string JSValue :=
    {[ "description" := JString "buy milk";
       "category" := JString "shopping";
       "done" := JBool false ]} in
  let '(r, w') :=
    run Sample.up (addTodo Sample.config (Sample.post (JObject fields)))
      (newResponse (boot 0)) in
  r = Returned tt
  /\ sent w' = [(200%Z, message "addTodo")]
  /\ inserted (since (boot 0) w') =
       [newDocument (JString "buy milk") (JString (Types.Category_label Types.shopping))].
Proof.
  apply (addTodo_accepts_typed_input Sample.config Sample.up
           (Sample.post (JObject {[ "description" := JString "buy milk";
                                    "category" := JString "shopping";
                                    "done" := JBool false ]}))
           (boot 0)
           {[ "description" := JString "buy milk";
              "category" := JString "shopping";
              "done" := JBool false ]}
           "buy milk" Types.shopping).
  - reflexivity.
  - reflexivity.
  - discriminate.
  - reflexivity.
  - right. reflexivity.
Defined.

(* ===================================================================== *)
(** * Requests one after another                                          *)
(* ===================================================================== *)

Lemma falsy_has_no_truthy (v : JSValue) (key : string) :
  isTruthy v = false -> hasTruthy v key = false.
Proof. unfold hasTruthy. destruct v; simpl; congruence. Qed.

Lemma documents_refused (req : Request) :
  hasTruthy (body req) "description" && hasTruthy (body req) "category" = false ->
  Server.documents (Server.ToAddTodo req) = [].
Proof.
  unfold hasTruthy, Server.documents.
  destruct (getProp (body req) "description") as [d |]; [| reflexivity].
  destruct (getProp (body req) "category") as [c |]; [| reflexivity].
  by intros ->.
Qed.

Lemma documents_accepted (req : Request) (d c : JSValue) :
  getProp (body req) "description" = Some d -> isTruthy d = true ->
  getProp (body req) "category" = Some c -> isTruthy c = true ->
  Server.documents (Server.ToAddTodo req) = [newDocument d c].
Proof. intros Ed Td Ec Tc. unfold Server.documents. by rewrite Ed, Ec, Td, Tc. Qed.

(** One request, with a driver that fulfils every promise: what it adds
    to the trace and where it leaves the connection. *)
Lemma serve_step (config : Config) (env : Env) (i : Server.Incoming) (w : World) :
  (forall p, outcome env p = Fulfilled) ->
  exists l,
    trace (Server.serve config env i w) = trace w ++ l
    /\ inserted l = Server.documents i
    /\ connectCalls l = length (Server.documents i)
    /\ connectionAttempts l =
         match Server.documents i with
         | [] => 0
         | _ :: _ => if Z.eqb (readyState w) 1 then 0 else 1
         end
    /\ readyState (Server.serve config env i w) =
         match Server.documents i with
         | [] => readyState w
         | _ :: _ => 1%Z
         end.
Proof.
  intros Hall. unfold Server.serve. destruct i as [req | req].
  - cbn [Server.handler].
    destruct (addTodo_run_spec config env req w)
      as [B | B D | B D C | d c D1 T1 C1 T2 L | d c D1 T1 C1 T2 N F | d c D1 T1 C1 T2 N F].
    + rewrite documents_refused
        by (by rewrite (falsy_has_no_truthy _ "description" B)).
      eexists. split; [reflexivity |]. by repeat split.
    + rewrite documents_refused by (by rewrite D).
      eexists. split; [reflexivity |]. by repeat split.
    + rewrite documents_refused by (by rewrite D, C).
      eexists. split; [reflexivity |]. by repeat split.
    + rewrite (documents_accepted req d c) by assumption.
      exists (since w (accepted d c (log EvDbConnect (validated req w)))).
      rewrite since_accepted_live.
      split; [simpl; by rewrite <- !app_assoc |].
      destruct (Z.eqb_spec (readyState w) 1) as [_ | N]; [| contradiction].
      by repeat split.
    + rewrite (documents_accepted req d c) by assumption.
      exists (since w (accepted d c (Gateway.attempted config Fulfilled (validated req w)))).
      rewrite since_accepted_attempted.
      split; [simpl; rewrite length_app, Nat.add_1_r; by rewrite <- !app_assoc |].
      destruct (Z.eqb_spec (readyState w) 1) as [E | _]; [contradiction |].
      by repeat split.
    + rewrite Hall in F. discriminate F.
  - cbn [Server.handler Server.documents]. simpl.
    eexists. split; [by rewrite <- !app_assoc |]. by repeat split.
Qed.

Lemma serveAll_trace (config : Config) (env : Env) (reqs : list Server.Incoming)
    (w : World) :
  (forall p, outcome env p = Fulfilled) ->
  exists l,
    trace (Server.serveAll config env reqs w) = trace w ++ l
    /\ inserted l = flat_map Server.documents reqs
    /\ connectCalls l = length (flat_map Server.documents reqs)
    /\ connectionAttempts l =
         match flat_map Server.documents reqs with
         | [] => 0
         | _ :: _ => if Z.eqb (readyState w) 1 then 0 else 1
         end
    /\ readyState (Server.serveAll config env reqs w) =
         match flat_map Server.documents reqs with
         | [] => readyState w
         | _ :: _ => 1%Z
         end.
Proof.
  intros Hall. revert w.
  induction reqs as [| i rest IH]; intros w.
  - exists []. simpl. rewrite app_nil_r. by repeat split.
  - destruct (serve_step config env i w Hall) as (l1 & T1 & I1 & C1 & A1 & R1).
    destruct (IH (Server.serve config env i w)) as (l2 & T2 & I2 & C2 & A2 & R2).
    exists (l1 ++ l2). cbn [Server.serveAll flat_map].
    split; [by apply (since_trans w (Server.serve config env i w)) |].
    rewrite inserted_app, connectCalls_app, connectionAttempts_app.
    rewrite I1, I2, C1, C2, A1, A2, R2, R1, length_app.
    destruct (Server.documents i) as [| doc docs]; simpl.
    + by repeat split.
    + repeat split.
      * destruct (flat_map Server.documents rest); lia.
      * by destruct (flat_map Server.documents rest).
Qed.

(** X14.  Requests served one after the other share one connection.  With
    a driver that fulfils its promises, any sequence of Create-Todo and
    List-Todos requests, valid or not, makes at most one connection
    attempt: none if the connection was live or no request passed the
    checks, one otherwise.  The gateway is entered once per accepted
    request, and what is inserted is the documents of the accepted
    requests, in the order of arrival, each once (also when two requests
    carry the same todo). *)
Theorem serveAll_shares_connection (config : Config) (env : Env)
    (reqs : list Server.Incoming) (w : World) :
  (forall p, outcome env p = Fulfilled) ->
  let w' := Server.serveAll config env reqs w in
  inserted (since w w') = flat_map Server.documents reqs
  /\ connectCalls (since w w') = length (flat_map Server.documents reqs)
  /\ connectionAttempts (since w w') =
       match flat_map Server.documents reqs with
       | [] => 0
       | _ :: _ => if Z.eqb (readyState w) 1 then 0 else 1
       end.
Proof.
  intros Hall w'. subst w'.
  destruct (serveAll_trace config env reqs w Hall) as (l & T & I & C & A & _).
  rewrite (since_app w _ l T). by repeat split.
Qed.

Lemma serveAll_shares_connection_witness :
  let reqs :=
    [Server.ToGetTodos Sample.get;
     Server.ToAddTodo (Sample.post Sample.testData);
     Server.ToAddTodo Sample.empty;
     Server.ToAddTodo (Sample.post Sample.testData)] in
  let w' := Server.serveAll Sample.config Sample.up reqs (boot 0) in
  inserted (since (boot 0) w') = flat_map Server.documents reqs
  /\ connectCalls (since (boot 0) w') = length (flat_map Server.documents reqs)
  /\ connectionAttempts (since (boot 0) w') =
       match flat_map Server.documents reqs with
       | [] => 0
       | _ :: _ => if Z.eqb (readyState (boot 0)) 1 then 0 else 1
       end.
Proof.
  apply (serveAll_shares_connection Sample.config Sample.up
           [Server.ToGetTodos Sample.get;
            Server.ToAddTodo (Sample.post Sample.testData);
            Server.ToAddTodo Sample.empty;
            Server.ToAddTodo (Sample.post Sample.testData)] (boot 0)).
  reflexivity.
Defined.

(** The same sequence, evaluated: one attempt, two documents. *)
Example serveAll_sample :
  let w' :=
    Server.serveAll Sample.config Sample.up
      [Server.ToGetTodos Sample.get;
       Server.ToAddTodo (Sample.post Sample.testData);
       Server.ToAddTodo Sample.empty;
       Server.ToAddTodo (Sample.post Sample.testData)] (boot 0) in
  connectionAttempts (trace w') = 1
  /\ connectCalls (trace w') = 2
  /\ inserted (trace w') = [Sample.testData; Sample.testData].
Proof. vm_compute. repeat split. Qed.
